(** * great-builds: the accounts router (api/postgres/routers/accounts.py)

    A shallow embedding of the authentication router: password check,
    token issuance, the header-or-cookie identity resolver and the session
    endpoints, followed by the properties of the specification that concern
    them.

    The router calls three collaborators whose code lives elsewhere:
    python-jose ([jwt.encode], [jwt.decode], [jws.verify]), passlib
    ([pwd_context.verify], [pwd_context.hash]) and the users repository
    ([repo.get_user], [repo.create_user]).
    They are parameters of the development; every function below is
    written against them exactly as the Python is. Of the framework, the
    cookie calls on the response and the response model of a route are
    modelled. *)

From stdpp Require Import base option list strings gmap.
From Stdlib Require Import ZArith String.

Local Open Scope string_scope.
Local Open Scope Z_scope.

(** ** Python values and exceptions *)

(** The scalar values that occur in claims and in rows. [VNone] is Python's
    [None] (JSON [null]). *)
Inductive value : Type :=
| VNone
| VBool (b : bool)
| VInt (n : Z)
| VStr (s : string).

#[global] Instance value_eq_dec : EqDecision value.
Proof. solve_decision. Defined.

(** A dict with string keys. *)
Abbreviation dict := (gmap string value).

(** [d.get(key)]: the value stored under [key], [None] when there is none. *)
Definition dict_get (d : dict) (key : string) : value :=
  default VNone (d !! key).

(** [d.copy()]: a new dict with the same items. *)
Definition dict_copy (d : dict) : dict :=
  map_fold (fun k v acc => <[k := v]> acc) ∅ d.

(** The exception classes the router names, [HTTPException] with the three
    fields the router gives it, and any other class by its name. A class
    stands for its subclasses too, as an [except] clause takes them. *)
Inductive exn : Type :=
| JWTError
| JWSError
| AttributeError
| HTTPException (status_code : Z) (detail : string)
                (headers : list (string * string))
| OtherError (class_name : string).

#[global] Instance exn_eq_dec : EqDecision exn.
Proof. solve_decision. Defined.

(** The outcome of a call: a returned value or a raised exception. *)
Inductive result (A : Type) : Type :=
| Return (a : A)
| Raise (e : exn).
Arguments Return {A} a.
Arguments Raise {A} e.

#[global] Instance result_ret : MRet result := @Return.
#[global] Instance result_bind : MBind result := fun A B f m =>
  match m with
  | Return a => f a
  | Raise e => Raise e
  end.

(** [try: body except (classes): handler]. *)
Definition try_except {A} (body : result A) (classes : list exn)
    (handler : result A) : result A :=
  match body with
  | Return a => Return a
  | Raise e => if bool_decide (e ∈ classes) then handler else Raise e
  end.

(** Truth value of an [Optional[str]]: [None] and the empty string are
    false, every other string is true. *)
Definition truthy (s : option string) : bool :=
  match s with
  | None => false
  | Some s => negb (bool_decide (s = ""))
  end.

(** [needle in hay] on strings. *)
Fixpoint str_contains (needle hay : string) : bool :=
  String.prefix needle hay ||
  match hay with
  | EmptyString => false
  | String _ rest => str_contains needle rest
  end.

(** ** Module constants *)

Definition ALGORITHM : string := "HS256".
Definition ACCESS_TOKEN_EXPIRE_MINUTES : Z := 30.
Definition COOKIE_NAME : string := "jwtdown_access_token".

Definition HTTP_401_UNAUTHORIZED : Z := 401.
Definition HTTP_422_UNPROCESSABLE_ENTITY : Z := 422.

(** ** The store *)

(** A row of the users table, by column position:
    id, user, password (the stored hash), email. *)
Record Row : Type := mkRow {
  ix0 : Z;
  ix1 : string;
  ix2 : string;
  ix3 : string
}.

#[global] Instance Row_eq_dec : EqDecision Row.
Proof. solve_decision. Defined.

(** [UsersQueries]: the repository object handed to the handlers. The
    router only reads through [get_user], which gives the row of a user
    name or [None]. *)
Record UsersQueries : Type := {
  get_user : value -> option Row
}.

Definition row_to_user (row : Row) : dict :=
  let user : dict :=
    <["email" := VStr (ix3 row)]>
      (<["password" := VStr (ix2 row)]>
        (<["user" := VStr (ix1 row)]>
          (<["id" := VInt (ix0 row)]> ∅))) in
  user.

(** ** Request and response *)

Record Request : Type := {
  headers : list (string * string);
  cookies : gmap string string
}.

(** The request headers are the header lines in order, names in lower
    case as the server hands them over.

    [key in headers]: some header line has that name. *)
Definition headers_contains (key : string) (hs : list (string * string)) : bool :=
  existsb (fun kv => bool_decide (kv.1 = key)) hs.

(** [headers[key]]: the value of the first header line with that name. *)
Fixpoint headers_getitem (key : string) (hs : list (string * string))
    : option string :=
  match hs with
  | [] => None
  | (k, v) :: rest =>
      if bool_decide (k = key) then Some v else headers_getitem key rest
  end.

Record CookieAttrs : Type := {
  httponly : bool;
  samesite : string;
  secure : bool
}.

(** What the handler asks the response to do with a cookie. *)
Inductive CookieOp : Type :=
| SetCookie (key value : string) (attrs : CookieAttrs)
| DeleteCookie (key : string) (attrs : CookieAttrs).

(** The injected [Response]: the status code a handler may assign (none
    until it does) and the cookie calls made on it, oldest first. *)
Record Response : Type := {
  status_code : option Z;
  cookie_ops : list CookieOp
}.

Definition set_cookie (response : Response) (key value : string)
    (httponly : bool) (samesite : string) (secure : bool) : Response :=
  {| status_code := status_code response;
     cookie_ops := cookie_ops response ++
       [SetCookie key value
          {| httponly := httponly; samesite := samesite; secure := secure |}] |}.

Definition delete_cookie (response : Response) (key : string)
    (httponly : bool) (samesite : string) (secure : bool) : Response :=
  {| status_code := status_code response;
     cookie_ops := cookie_ops response ++
       [DeleteCookie key
          {| httponly := httponly; samesite := samesite; secure := secure |}] |}.

Definition set_status_code (response : Response) (code : Z) : Response :=
  {| status_code := Some code; cookie_ops := cookie_ops response |}.

(** The response as the framework injects it into a handler: no status
    assigned, no cookie call made. *)
Definition empty_response : Response :=
  {| status_code := None; cookie_ops := [] |}.

(** The request declares an origin, and "localhost" occurs in it. *)
Definition local_origin (request : Request) : Prop :=
  exists origin,
    headers_getitem "origin" (headers request) = Some origin /\
    str_contains "localhost" origin = true.

(** The attributes of a cookie call. *)
Definition op_attrs (op : CookieOp) : CookieAttrs :=
  match op with
  | SetCookie _ _ attrs => attrs
  | DeleteCookie _ attrs => attrs
  end.

(** The cookie store of the client that receives the response: a set
    cookie replaces the one of that name, a deleted cookie is gone. *)
Definition apply_cookie_op (jar : gmap string string) (op : CookieOp)
    : gmap string string :=
  match op with
  | SetCookie key value _ => <[key := value]> jar
  | DeleteCookie key _ => delete key jar
  end.

Definition apply_cookie_ops (jar : gmap string string) (ops : list CookieOp)
    : gmap string string :=
  foldl apply_cookie_op jar ops.

(** The login form. *)
Record OAuth2PasswordRequestForm : Type := {
  username : string;
  password : string
}.

(** The body of a successful login. *)
Record Token : Type := {
  access_token : string;
  token_type : string
}.

(** The [AccessToken] model. *)
Record AccessToken : Type := {
  token : string
}.

(** [response_model=AccessToken] on a route: what the handler returned is
    validated against the model before anything is sent. A dict with a
    string under "token" passes; [None] is no [AccessToken], the framework
    raises its response validation error and the client gets status 500. *)
Definition response_model_AccessToken (content : option AccessToken)
    : result AccessToken :=
  match content with
  | Some body => Return body
  | None => Raise (OtherError "ResponseValidationError")
  end.

(** What [validate_token] returns: the payload bytes [jws.verify] gave, or
    a dict with a [detail]. *)
Inductive ValidateBody : Type :=
| Payload (payload : string)
| Detail (detail : string).

(** The [UserSignUp] model, the body of a signup. *)
Module UserSignUp.
Record t : Type := {
  username : string;
  email : option string;
  full_name : option string;
  disabled : option bool;
  password : string
}.
End UserSignUp.

(** What [authenticate_user] returns: [False] or the row. A row has four
    columns, so as a condition it counts as true. *)
Inductive AuthResult : Type :=
| PyFalse
| PyRow (user : Row).

(** ** Stand-ins for the collaborators

    A small codec, hasher and store on which the statements below are
    exercised. A token of the stand-in codec is the key, a dot and the
    subject; one more token carries no subject at all. *)

Definition demo_subject (claims : dict) : string :=
  match claims !! "sub" with
  | Some (VStr s) => s
  | _ => ""
  end.

Definition demo_jwt_encode (claims : dict) (key algorithm : string)
    : result string :=
  Return (key ++ "." ++ demo_subject claims).

Definition demo_jwt_decode (token : option string) (key : string)
    (algorithms : list string) : result dict :=
  match token with
  | None => Raise AttributeError
  | Some t =>
      if bool_decide (t = key ++ ".alice") then Return {[ "sub" := VStr "alice" ]}
      else if bool_decide (t = key ++ ".bob") then Return {[ "sub" := VStr "bob" ]}
      else if bool_decide (t = key ++ ".") then Return ∅
      else Raise JWTError
  end.

Definition demo_jws_verify (token key algorithms : string) : result string :=
  if String.prefix (key ++ ".") token then Return "sub=alice"
  else Raise JWSError.

Definition demo_pwd_verify (plain hashed : string) : result bool :=
  Return (bool_decide (hashed = "hash:" ++ plain)).

Definition alice : Row :=
  mkRow 1 "alice" "hash:wonderland" "alice@example.com".

Definition demo_repo : UsersQueries :=
  {| get_user := fun name =>
       if bool_decide (name = VStr "alice") then Some alice else None |}.

(** Python's [x in s] for a string [s]: a substring test, and a
    [TypeError] when [x] is not a string. For a list it is membership. *)
Definition py_in_str (x : value) (s : string) : result bool :=
  match x with
  | VStr needle => Return (str_contains needle s)
  | _ => Raise (OtherError "TypeError")
  end.

Definition py_in_list (x : value) (l : list string) : result bool :=
  Return (bool_decide (x ∈ (VStr <$> l))).

(** A stand-in verifier that tests the "alg" of the token's header
    against [algorithms] with [in] before it looks at the signature, the
    string it was given taken as it is. A stand-in token that starts with
    "5." has the number 5 as its "alg", any other has "HS256". *)
Definition demo_header_alg (token : string) : value :=
  if String.prefix "5." token then VInt 5 else VStr "HS256".

Definition demo_jose_verify (token key algorithms : string) : result string :=
  allowed ← py_in_str (demo_header_alg token) algorithms;
  if negb allowed then Raise JWSError
  else demo_jws_verify token key algorithms.

Definition demo_pwd_hash (plain : string) : result string :=
  Return ("hash:" ++ plain).

(** The stand-in store refuses a second row for a user name; a new row
    gets the next id. *)
Definition demo_create_user (repo : UsersQueries)
    (username hashed_password : string) (email : option string)
    : result UsersQueries :=
  match get_user repo (VStr username) with
  | Some _ => Raise (OtherError "UniqueViolation")
  | None =>
      Return {| get_user := fun name =>
                  if bool_decide (name = VStr username)
                  then Some (mkRow 2 username hashed_password (default "" email))
                  else get_user repo name |}
  end.

(** ** The router *)

Section Router.

(** [os.environ["SECRET_KEY"]], read once when the module is loaded. *)
Variable SECRET_KEY : string.

(** [jwt.encode(claims, key, algorithm=...)]. *)
Variable jwt_encode : dict -> string -> string -> result string.
(** [jwt.decode(token, key, algorithms=[...])]; the token may be [None]. *)
Variable jwt_decode : option string -> string -> list string -> result dict.
(** [jws.verify(token, key, algorithms=...)]. *)
Variable jws_verify : string -> string -> string -> result string.
(** [pwd_context.verify(plain, hashed)]. *)
Variable pwd_context_verify : string -> string -> result bool.

Definition verify_password (plain_password hashed_password : string)
    : result bool :=
  pwd_context_verify plain_password hashed_password.

Definition authenticate_user (repo : UsersQueries)
    (username password : string) : result AuthResult :=
  let user := get_user repo (VStr username) in
  match user with
  | None => Return PyFalse
  | Some user =>
      ok ← verify_password password (ix2 user);
      if negb ok then Return PyFalse
      else Return (PyRow user)
  end.

Definition create_access_token (data : dict) : result string :=
  let to_encode := dict_copy data in
  encoded_jwt ← jwt_encode to_encode SECRET_KEY ALGORITHM;
  Return encoded_jwt.

Definition credentials_exception : exn :=
  HTTPException HTTP_401_UNAUTHORIZED
    "Invalid authentication credentials"
    [("WWW-Authenticate", "Bearer")].

(** The value of the local [token] after lines 100-102. *)
Definition candidate_token (bearer_token cookie_token : option string)
    : option string :=
  let token := bearer_token in
  if negb (truthy token) && truthy cookie_token then cookie_token
  else token.

Definition get_current_user (bearer_token cookie_token : option string)
    (repo : UsersQueries) : result dict :=
  let token := candidate_token bearer_token cookie_token in
  username ←
    try_except
      (payload ← jwt_decode token SECRET_KEY [ALGORITHM];
       let username := dict_get payload "sub" in
       if bool_decide (username = VNone) then Raise credentials_exception
       else Return username)
      [JWTError; AttributeError]
      (Raise credentials_exception);
  let user := get_user repo username in
  match user with
  | None => Raise credentials_exception
  | Some user => Return (row_to_user user)
  end.

Definition get_current_active_user (current_user : dict) : dict :=
  current_user.

(** POST /token *)
Definition login_for_access_token (response : Response) (request : Request)
    (form_data : OAuth2PasswordRequestForm) (repo : UsersQueries)
    : result (Token * Response) :=
  user ← authenticate_user repo (username form_data) (password form_data);
  match user with
  | PyFalse =>
      Raise (HTTPException HTTP_401_UNAUTHORIZED
               "Invalid authentication credentials"
               [("WWW-Authenticate", "Bearer")])
  | PyRow user =>
      access_token ← create_access_token {[ "sub" := VStr (ix1 user) ]};
      let token :=
        {| access_token := access_token; token_type := "bearer" |} in
      let headers := headers request in
      let samesite := "none" in
      let secure := true in
      let '(samesite, secure) :=
        if headers_contains "origin" headers &&
           match headers_getitem "origin" headers with
           | Some origin => str_contains "localhost" origin
           | None => false
           end
        then ("lax", false)
        else (samesite, secure) in
      let response :=
        set_cookie response COOKIE_NAME access_token true samesite secure in
      Return (token, response)
  end.

(** GET /token, with the [response_model] of its decorator (line 158).
    Without the cookie the function falls off its end and returns [None]. *)
Definition get_token (request : Request) : result AccessToken :=
  let content :=
    match cookies request !! COOKIE_NAME with
    | Some v => Some {| token := v |}
    | None => None
    end in
  response_model_AccessToken content.

(** The function behind GET /users/me, on its own: neither the resolver
    it depends on nor the response model of the route. *)
Definition read_users_me (current_user : dict) : dict :=
  current_user.

(** POST /token/validate *)
Definition validate_token (access_token : AccessToken) (response : Response)
    : result (ValidateBody * Response) :=
  match jws_verify (token access_token) SECRET_KEY ALGORITHM with
  | Return payload => Return (Payload payload, response)
  | Raise JWSError =>
      let response :=
        set_status_code response HTTP_422_UNPROCESSABLE_ENTITY in
      Return (Detail "Not a good token", response)
  | Raise e => Raise e
  end.

(** DELETE /token *)
Definition logout (request : Request) (response : Response)
    : result Response :=
  let samesite := "none" in
  let headers := headers request in
  let secure := true in
  let '(samesite, secure) :=
    if headers_contains "origin" headers &&
       match headers_getitem "origin" headers with
       | Some origin => str_contains "localhost" origin
       | None => false
       end
    then ("lax", false)
    else (samesite, secure) in
  let response :=
    delete_cookie response COOKIE_NAME true samesite secure in
  Return response.

(** [pwd_context.hash(plain)]. *)
Variable pwd_context_hash : string -> result string.
(** [repo.create_user(username, hashed_password, email)]: it raises, or
    returns with the store changed; the repository as it is afterwards is
    the outcome. *)
Variable create_user :
  UsersQueries -> string -> string -> option string -> result UsersQueries.

(** POST /api/users *)
Definition signup (user : UserSignUp.t) (repo : UsersQueries)
    : result UsersQueries :=
  hashed_password ← pwd_context_hash (UserSignUp.password user);
  create_user repo (UserSignUp.username user) hashed_password
    (UserSignUp.email user).

(** ** Auxiliary facts *)

Lemma dict_copy_id (d : dict) : dict_copy d = d.
Proof.
  unfold dict_copy.
  apply (map_fold_weak_ind (fun (r : dict) (m : dict) => r = m)).
  - reflexivity.
  - intros i x m r _ ->. reflexivity.
Qed.

Lemma truthy_Some (s : string) : truthy (Some s) = true <-> s <> "".
Proof.
  unfold truthy. case_bool_decide; simpl; split; intros; congruence.
Qed.

Lemma truthy_false (s : option string) :
  truthy s = false <-> s = None \/ s = Some "".
Proof.
  destruct s as [s|]; simpl.
  - case_bool_decide; simpl; split; intros H0; subst; auto;
      try discriminate; destruct H0; congruence.
  - split; auto.
Qed.

Lemma headers_contains_getitem (key : string) (hs : list (string * string)) :
  headers_contains key hs = true <-> is_Some (headers_getitem key hs).
Proof.
  induction hs as [|[k v] hs IH]; simpl.
  - split; [discriminate | intros [? ?]; discriminate].
  - case_bool_decide; simpl.
    + split; eauto.
    + exact IH.
Qed.

(** ** The identity resolver *)

(** C1, as amended. A header token that is not the empty string is the
    candidate whatever the cookie holds: the resolver gives the same outcome
    as without the cookie, and when the header token does not verify the
    request is rejected even though a cookie came with it. *)
Theorem header_token_takes_precedence :
  forall (bearer : string) (cookie_token : option string) (repo : UsersQueries),
    bearer <> "" ->
    candidate_token (Some bearer) cookie_token = Some bearer /\
    get_current_user (Some bearer) cookie_token repo
      = get_current_user (Some bearer) None repo /\
    (jwt_decode (Some bearer) SECRET_KEY [ALGORITHM] = Raise JWTError ->
     get_current_user (Some bearer) cookie_token repo
       = Raise credentials_exception).
Proof.
  intros bearer cookie_token repo Hne.
  assert (Hc : forall c, candidate_token (Some bearer) c = Some bearer).
  { intros c. unfold candidate_token.
    apply truthy_Some in Hne. rewrite Hne. reflexivity. }
  split; [apply Hc|]. split.
  - unfold get_current_user. rewrite !Hc. reflexivity.
  - intros Hdec. unfold get_current_user. rewrite Hc, Hdec. reflexivity.
Qed.

(** The candidate is the cookie token exactly when the header token is
    absent or empty and the cookie token is a non-empty string. *)
Lemma candidate_token_cookie (bearer_token cookie_token : option string) :
  candidate_token bearer_token cookie_token <> bearer_token ->
  (bearer_token = None \/ bearer_token = Some "") /\
  candidate_token bearer_token cookie_token = cookie_token.
Proof.
  unfold candidate_token.
  destruct (truthy bearer_token) eqn:Hb; simpl; [congruence|].
  destruct (truthy cookie_token); [|congruence].
  intros _. split; [by apply truthy_false | reflexivity].
Qed.


(** ** Credential check and token issuance *)


Lemma create_access_token_encode (data : dict) :
  create_access_token data = jwt_encode data SECRET_KEY ALGORITHM.
Proof.
  unfold create_access_token. rewrite dict_copy_id.
  destruct (jwt_encode data SECRET_KEY ALGORITHM); reflexivity.
Qed.

(** Issuance and resolution name the same key and the same algorithm: a
    codec that decodes what it encoded under them gives back the data that
    went into [create_access_token]. *)
Lemma issued_token_decodes (data : dict) (jwt : string) :
  (forall claims t,
     jwt_encode claims SECRET_KEY ALGORITHM = Return t ->
     jwt_decode (Some t) SECRET_KEY [ALGORITHM] = Return claims) ->
  create_access_token data = Return jwt ->
  jwt_decode (Some jwt) SECRET_KEY [ALGORITHM] = Return data.
Proof.
  intros Hcodec. rewrite create_access_token_encode. apply Hcodec.
Qed.

(** C7. The claims handed to the encoder are the given ones, item for
    item: a key absent from the data ("exp" and "iat" among them) is absent
    from what is signed, and the token is the encoder's output on exactly
    the data under the configured key and algorithm. *)
Theorem create_access_token_passes_claims_through :
  forall (data : dict),
    dict_copy data = data /\
    (forall key, dict_copy data !! key = data !! key) /\
    (data !! "exp" = None -> dict_copy data !! "exp" = None) /\
    (data !! "iat" = None -> dict_copy data !! "iat" = None) /\
    create_access_token data = jwt_encode data SECRET_KEY ALGORITHM.
Proof.
  intros data. rewrite dict_copy_id. repeat split; try done.
  apply create_access_token_encode.
Qed.

(** ** Session endpoints *)

(** The test of lines 145 and 197 holds exactly for a local origin. *)
Lemma local_origin_test (request : Request) :
  headers_contains "origin" (headers request) &&
  match headers_getitem "origin" (headers request) with
  | Some origin => str_contains "localhost" origin
  | None => false
  end = true <-> local_origin request.
Proof.
  unfold local_origin. rewrite andb_true_iff, headers_contains_getitem.
  destruct (headers_getitem "origin" (headers request)) as [o|]; split.
  - intros [_ H]. eauto.
  - intros (o' & [= <-] & H). eauto.
  - intros [_ H]. discriminate.
  - intros (o' & H & _). discriminate.
Qed.

Lemma local_origin_or_not (request : Request) :
  local_origin request \/ ~ local_origin request.
Proof.
  pose proof (local_origin_test request) as Htest.
  destruct (headers_contains "origin" (headers request) && _).
  - left. by apply Htest.
  - right. intros H%Htest. discriminate.
Qed.

(** A login that returns went through every step: a row, an accepted
    password, an encoded token, one cookie call. *)
Lemma login_returns (response : Response) (request : Request)
    (form_data : OAuth2PasswordRequestForm) (repo : UsersQueries)
    (body : Token) (response' : Response) :
  login_for_access_token response request form_data repo
    = Return (body, response') ->
  exists user jwt attrs,
    get_user repo (VStr (username form_data)) = Some user /\
    pwd_context_verify (password form_data) (ix2 user) = Return true /\
    jwt_encode {[ "sub" := VStr (ix1 user) ]} SECRET_KEY ALGORITHM
      = Return jwt /\
    body = {| access_token := jwt; token_type := "bearer" |} /\
    cookie_ops response'
      = (cookie_ops response ++ [SetCookie COOKIE_NAME jwt attrs])%list /\
    status_code response' = status_code response /\
    httponly attrs = true /\
    (local_origin request -> samesite attrs = "lax" /\ secure attrs = false) /\
    (~ local_origin request -> samesite attrs = "none" /\ secure attrs = true).
Proof.
  unfold login_for_access_token, authenticate_user, verify_password.
  destruct (get_user repo (VStr (username form_data))) as [user|];
    [|discriminate].
  destruct (pwd_context_verify (password form_data) (ix2 user))
    as [[|]|e] eqn:Hpwd; simpl; try discriminate.
  rewrite create_access_token_encode.
  destruct (jwt_encode {[ "sub" := VStr (ix1 user) ]} SECRET_KEY ALGORITHM)
    as [jwt|e] eqn:Henc; simpl; [|discriminate].
  pose proof (local_origin_test request) as Htest.
  destruct (headers_contains "origin" (headers request) && _) eqn:Hdev;
    intros [= <- <-]; eexists _, _, _;
    (split; [reflexivity|]); (split; [exact Hpwd|]);
    (split; [exact Henc|]); (split; [reflexivity|]);
    (split; [reflexivity|]); (split; [reflexivity|]);
    (split; [reflexivity|]); simpl; split.
  - intros _. split; reflexivity.
  - intros Hno. destruct Hno. by apply Htest.
  - intros Hyes%Htest. discriminate.
  - intros _. split; reflexivity.
Qed.

(** What [logout] does, for every request and response. *)
Lemma logout_returns (request : Request) (response : Response) :
  exists attrs,
    logout request response
      = Return {| status_code := status_code response;
                  cookie_ops := cookie_ops response
                                  ++ [DeleteCookie COOKIE_NAME attrs] |} /\
    httponly attrs = true /\
    (local_origin request -> samesite attrs = "lax" /\ secure attrs = false) /\
    (~ local_origin request -> samesite attrs = "none" /\ secure attrs = true).
Proof.
  unfold logout. pose proof (local_origin_test request) as Htest.
  destruct (headers_contains "origin" (headers request) && _) eqn:Hdev;
    eexists; (split; [reflexivity|]); (split; [reflexivity|]); simpl; split.
  - intros _. split; reflexivity.
  - intros Hno. destruct Hno. by apply Htest.
  - intros Hyes%Htest. discriminate.
  - intros _. split; reflexivity.
Qed.

(** C5. A login that succeeds sets the cookie once, with the token as its
    value: samesite lax and not secure when the request declares an origin
    in which "localhost" occurs, samesite none and secure in every other
    case, an absent origin included. *)
Theorem login_cookie_attributes :
  forall (response : Response) (request : Request)
         (form_data : OAuth2PasswordRequestForm) (repo : UsersQueries)
         (body : Token) (response' : Response),
    login_for_access_token response request form_data repo
      = Return (body, response') ->
    (local_origin request ->
     cookie_ops response'
       = (cookie_ops response ++
          [SetCookie COOKIE_NAME (access_token body)
             {| httponly := true; samesite := "lax"; secure := false |}])%list) /\
    (~ local_origin request ->
     cookie_ops response'
       = (cookie_ops response ++
          [SetCookie COOKIE_NAME (access_token body)
             {| httponly := true; samesite := "none"; secure := true |}])%list).
Proof.
  intros response request form_data repo body response' Hlogin.
  apply login_returns in Hlogin
    as (user & jwt & [h ss sec] & _ & _ & _ & -> & -> & _ & Hh & Hdev & Hprod).
  simpl in *. subst h. split.
  - intros [-> ->]%Hdev. reflexivity.
  - intros [-> ->]%Hprod. reflexivity.
Qed.

(** C8, as the code has it. With the cookie in the request the endpoint
    answers with the token it carries. Without it the function returns
    [None], which the response model of the route does not admit: the
    endpoint raises the response validation error where the specification
    has it answer without a body and without an error. *)
Theorem get_token_without_cookie_fails :
  forall (request : Request),
    (forall v, cookies request !! COOKIE_NAME = Some v ->
       get_token request = Return {| token := v |}) /\
    (cookies request !! COOKIE_NAME = None ->
       get_token request = Raise (OtherError "ResponseValidationError")).
Proof.
  intros request. unfold get_token. split.
  - intros v ->. reflexivity.
  - intros ->. reflexivity.
Qed.

(** C6, as the code has it. When [jws.verify] raises [JWSError] the
    response gets status 422 and the body is the fixed detail, and when it
    returns the body is its payload. But the handler gives [jws.verify] the
    string ALGORITHM where the resolver gives [jwt.decode] a list, and it
    catches [JWSError] alone: the [TypeError] of a token whose header "alg"
    is not a string is not turned into the 422 answer, it reaches the
    caller. *)
Theorem validate_token_type_error_escapes :
  forall (access_token : AccessToken) (response : Response),
    (jws_verify (token access_token) SECRET_KEY ALGORITHM = Raise JWSError ->
     validate_token access_token response
       = Return (Detail "Not a good token",
                 {| status_code := Some 422;
                    cookie_ops := cookie_ops response |})) /\
    (forall payload,
       jws_verify (token access_token) SECRET_KEY ALGORITHM = Return payload ->
       validate_token access_token response
         = Return (Payload payload, response)) /\
    (jws_verify (token access_token) SECRET_KEY ALGORITHM
       = Raise (OtherError "TypeError") ->
     validate_token access_token response = Raise (OtherError "TypeError") /\
     forall body response',
       validate_token access_token response <> Return (body, response')).
Proof.
  intros access_token response. unfold validate_token.
  split; [|split].
  - intros ->. reflexivity.
  - intros payload ->. reflexivity.
  - intros ->. split; [reflexivity | discriminate].
Qed.

(** C9. Logout returns for every request, whatever cookies it carries, and
    asks for the cookie to be deleted with the attributes login would have
    used for the same request: lax and not secure for a local origin, none
    and secure otherwise. A client that applies a second logout after a
    first is left as after the first, without the cookie. *)
Theorem logout_spec :
  forall (request : Request) (response : Response),
    (exists attrs,
       logout request response
         = Return {| status_code := status_code response;
                     cookie_ops := cookie_ops response
                                     ++ [DeleteCookie COOKIE_NAME attrs] |} /\
       (local_origin request ->
        samesite attrs = "lax" /\ secure attrs = false) /\
       (~ local_origin request ->
        samesite attrs = "none" /\ secure attrs = true)) /\
    (forall request',
       headers request' = headers request ->
       logout request' response = logout request response) /\
    (forall response0 form_data repo body response1 response',
       login_for_access_token response0 request form_data repo
         = Return (body, response1) ->
       logout request response = Return response' ->
       op_attrs <$> last (cookie_ops response1)
         = op_attrs <$> last (cookie_ops response')) /\
    (forall request2 response1 response2 jar,
       logout request empty_response = Return response1 ->
       logout request2 empty_response = Return response2 ->
       apply_cookie_ops jar (cookie_ops response1) !! COOKIE_NAME = None /\
       apply_cookie_ops (apply_cookie_ops jar (cookie_ops response1))
                        (cookie_ops response2)
         = apply_cookie_ops jar (cookie_ops response1)).
Proof.
  intros request response.
  destruct (logout_returns request response)
    as (attrs & Hout & Hh & Hdev & Hprod).
  split; [eauto|]. split; [|split].
  - intros request' Hhs. unfold logout. rewrite Hhs. reflexivity.
  - intros response0 form_data repo body response1 response' Hlogin Hlogout.
    apply login_returns in Hlogin
      as (user & jwt & attrs1 & _ & _ & _ & _ & -> & _ & Hh1 & Hdev1 & Hprod1).
    rewrite Hout in Hlogout. injection Hlogout as <-. simpl.
    rewrite !last_snoc. simpl. f_equal.
    destruct attrs as [h ss sec], attrs1 as [h1 ss1 sec1]. simpl in *.
    subst h h1.
    destruct (local_origin_or_not request) as [Hl|Hl].
    + destruct (Hdev Hl) as [-> ->], (Hdev1 Hl) as [-> ->]. reflexivity.
    + destruct (Hprod Hl) as [-> ->], (Hprod1 Hl) as [-> ->]. reflexivity.
  - intros request2 response1 response2 jar H1 H2.
    destruct (logout_returns request empty_response) as (a1 & E1 & _).
    destruct (logout_returns request2 empty_response) as (a2 & E2 & _).
    rewrite E1 in H1. rewrite E2 in H2.
    injection H1 as <-. injection H2 as <-. simpl. split.
    + apply lookup_delete_eq.
    + apply delete_delete_eq.
Qed.

(** C10. The cookie call of a login that succeeds and the cookie call of
    a logout both carry httponly, for a local origin and for any other. *)
Theorem cookie_is_always_httponly :
  forall (request : Request) (response : Response),
    (forall form_data repo body response',
       login_for_access_token response request form_data repo
         = Return (body, response') ->
       exists op,
         cookie_ops response' = (cookie_ops response ++ [op])%list /\
         httponly (op_attrs op) = true) /\
    (exists response' op,
       logout request response = Return response' /\
       cookie_ops response' = (cookie_ops response ++ [op])%list /\
       httponly (op_attrs op) = true).
Proof.
  intros request response. split.
  - intros form_data repo body response' Hlogin.
    apply login_returns in Hlogin
      as (user & jwt & attrs & _ & _ & _ & _ & -> & _ & Hh & _).
    eexists. split; [reflexivity|]. exact Hh.
  - destruct (logout_returns request response) as (attrs & -> & Hh & _).
    eexists _, _. split; [reflexivity|]. split; [reflexivity|]. exact Hh.
Qed.

(** ** Further properties of the router *)

(** The resolver looks at its two tokens only through the candidate. *)
Lemma get_current_user_candidate (bearer_token cookie_token : option string)
    (repo : UsersQueries) :
  get_current_user bearer_token cookie_token repo
    = get_current_user (candidate_token bearer_token cookie_token) None repo.
Proof.
  unfold get_current_user. f_equal. f_equal. f_equal.
  unfold candidate_token. simpl. by rewrite andb_false_r.
Qed.

(** X1. Login raises the 401 of the resolver exactly when the store has
    no row for the user name or the hasher rejects the password, the same
    exception in both cases; any other exception is the one the hasher or
    the encoder raised, passed on as it is. *)
Theorem login_raises_iff :
  forall (response : Response) (request : Request)
         (form_data : OAuth2PasswordRequestForm) (repo : UsersQueries)
         (e : exn),
    login_for_access_token response request form_data repo = Raise e <->
    (e = credentials_exception /\
     (get_user repo (VStr (username form_data)) = None \/
      exists user,
        get_user repo (VStr (username form_data)) = Some user /\
        pwd_context_verify (password form_data) (ix2 user) = Return false)) \/
    (exists user,
       get_user repo (VStr (username form_data)) = Some user /\
       pwd_context_verify (password form_data) (ix2 user) = Raise e) \/
    (exists user,
       get_user repo (VStr (username form_data)) = Some user /\
       pwd_context_verify (password form_data) (ix2 user) = Return true /\
       jwt_encode {[ "sub" := VStr (ix1 user) ]} SECRET_KEY ALGORITHM
         = Raise e).
Proof.
  intros response request form_data repo e.
  unfold login_for_access_token, authenticate_user, verify_password,
    credentials_exception.
  destruct (get_user repo (VStr (username form_data))) as [user|]; simpl.
  - destruct (pwd_context_verify (password form_data) (ix2 user))
      as [[|]|e'] eqn:Hpwd; simpl.
    + rewrite create_access_token_encode.
      destruct (jwt_encode {[ "sub" := VStr (ix1 user) ]} SECRET_KEY ALGORITHM)
        as [jwt|e'] eqn:Henc; simpl.
      * split.
        -- destruct (headers_contains "origin" (headers request) && _);
             discriminate.
        -- intros H. decompose [or and ex] H; congruence.
      * split.
        -- intros [= ->]. right. right. eauto.
        -- intros H. decompose [or and ex] H; congruence.
    + split.
      * intros [= <-]. left. split; [reflexivity|]. right. eauto.
      * intros H. decompose [or and ex] H; congruence.
    + split.
      * intros [= ->]. right. left. eauto.
      * intros H. decompose [or and ex] H; congruence.
  - split.
    + intros [= <-]. left. split; [reflexivity|]. by left.
    + intros H. decompose [or and ex] H; congruence.
Qed.

(** X2. Login returns exactly when the store has a row for the user name,
    the hasher accepts the password against the hash of that row and the
    encoder returns. The body then has type "bearer" and carries the
    encoder's output on the single claim "sub", the user column of the row;
    the cookie set has that same token as its value, and the status of the
    response is left alone. *)
Theorem login_succeeds_iff :
  forall (response : Response) (request : Request)
         (form_data : OAuth2PasswordRequestForm) (repo : UsersQueries),
    ((exists body response',
        login_for_access_token response request form_data repo
          = Return (body, response')) <->
     (exists user jwt,
        get_user repo (VStr (username form_data)) = Some user /\
        pwd_context_verify (password form_data) (ix2 user) = Return true /\
        jwt_encode {[ "sub" := VStr (ix1 user) ]} SECRET_KEY ALGORITHM
          = Return jwt)) /\
    (forall body response',
       login_for_access_token response request form_data repo
         = Return (body, response') ->
       token_type body = "bearer" /\
       status_code response' = status_code response /\
       (exists attrs,
          cookie_ops response'
            = (cookie_ops response ++
               [SetCookie COOKIE_NAME (access_token body) attrs])%list) /\
       exists user,
         get_user repo (VStr (username form_data)) = Some user /\
         jwt_encode {[ "sub" := VStr (ix1 user) ]} SECRET_KEY ALGORITHM
           = Return (access_token body)).
Proof.
  intros response request form_data repo. split; [split|].
  - intros (body & response' & Hlogin).
    apply login_returns in Hlogin
      as (user & jwt & attrs & Hrow & Hpwd & Henc & _). eauto.
  - intros (user & jwt & Hrow & Hpwd & Henc).
    unfold login_for_access_token, authenticate_user, verify_password.
    rewrite Hrow. simpl. rewrite Hpwd. simpl.
    rewrite create_access_token_encode, Henc. simpl.
    destruct (headers_contains "origin" (headers request) && _); eauto.
  - intros body response' Hlogin.
    apply login_returns in Hlogin
      as (user & jwt & attrs & Hrow & _ & Henc & -> & Hops & Hst & _).
    simpl. split; [reflexivity|]. split; [exact Hst|]. split; eauto.
Qed.

(** X3. With no header token, or an empty one, a non-empty cookie token is
    resolved exactly as it would be as a header token; a cookie token that
    is absent or empty changes nothing. *)
Theorem resolver_cookie_fallback :
  forall (bearer_token cookie_token : option string) (repo : UsersQueries),
    (forall cookie,
       bearer_token = None \/ bearer_token = Some "" ->
       cookie_token = Some cookie -> cookie <> "" ->
       get_current_user bearer_token cookie_token repo
         = get_current_user (Some cookie) None repo) /\
    (cookie_token = None \/ cookie_token = Some "" ->
     get_current_user bearer_token cookie_token repo
       = get_current_user bearer_token None repo).
Proof.
  intros bearer_token cookie_token repo. split.
  - intros cookie Hb -> Hc.
    rewrite get_current_user_candidate. f_equal.
    unfold candidate_token.
    apply truthy_false in Hb. apply truthy_Some in Hc.
    rewrite Hb, Hc. reflexivity.
  - intros Hc.
    rewrite get_current_user_candidate.
    rewrite (get_current_user_candidate bearer_token None). f_equal.
    unfold candidate_token. apply truthy_false in Hc. rewrite Hc. simpl.
    by rewrite !andb_false_r.
Qed.

(** X4. Login and the resolver fit together: when the codec decodes the
    token of a successful login to the subject claim it was encoded from,
    that token, sent back as header token or as the cookie alone,
    resolves to the row the store holds for the user column of the row
    that logged in, and is rejected with the 401 when the store holds
    none. *)
Theorem login_then_resolve :
  forall (response : Response) (request : Request)
         (form_data : OAuth2PasswordRequestForm) (repo : UsersQueries)
         (body : Token) (response' : Response) (cookie_token : option string),
    (forall sub,
       jwt_encode {[ "sub" := VStr sub ]} SECRET_KEY ALGORITHM
         = Return (access_token body) ->
       jwt_decode (Some (access_token body)) SECRET_KEY [ALGORITHM]
         = Return {[ "sub" := VStr sub ]}) ->
    login_for_access_token response request form_data repo
      = Return (body, response') ->
    access_token body <> "" ->
    exists user,
      get_user repo (VStr (username form_data)) = Some user /\
      let resolved :=
        match get_user repo (VStr (ix1 user)) with
        | Some user' => Return (row_to_user user')
        | None => Raise credentials_exception
        end in
      get_current_user (Some (access_token body)) cookie_token repo
        = resolved /\
      get_current_user None (Some (access_token body)) repo = resolved.
Proof.
  intros response request form_data repo body response' cookie_token
    Hcodec Hlogin Hne.
  apply login_returns in Hlogin
    as (user & jwt & attrs & Hrow & _ & Henc & -> & _).
  simpl in Hne, Hcodec. exists user. split; [exact Hrow|]. simpl.
  assert (Hres : get_current_user (Some jwt) None repo
                 = match get_user repo (VStr (ix1 user)) with
                   | Some user' => Return (row_to_user user')
                   | None => Raise credentials_exception
                   end).
  { unfold get_current_user, candidate_token. simpl.
    rewrite andb_false_r. rewrite (Hcodec _ Henc). simpl.
    unfold dict_get. rewrite lookup_singleton_eq. simpl.
    reflexivity. }
  split.
  - rewrite get_current_user_candidate. rewrite <- Hres. f_equal.
    unfold candidate_token. apply truthy_Some in Hne. by rewrite Hne.
  - rewrite get_current_user_candidate. rewrite <- Hres. f_equal.
    unfold candidate_token. apply truthy_Some in Hne. simpl.
    simpl in Hne. by rewrite Hne.
Qed.

(** [String.prefix] and [str_contains] against concatenation. *)
Lemma append_cons (a : Ascii.ascii) (s t : string) :
  String a s ++ t = String a (s ++ t).
Proof. reflexivity. Qed.

Lemma prefix_app (needle hay : string) :
  String.prefix needle hay = true <-> exists post, hay = needle ++ post.
Proof.
  revert hay.
  induction needle as [|a needle IH]; intros [|b hay]; simpl.
  - split; [intros _; by exists "" | done].
  - split; [intros _; by exists (String b hay) | done].
  - split; [discriminate | intros (post & H); discriminate].
  - destruct (Ascii.ascii_dec a b) as [->|Hab].
    + rewrite IH. split; intros (post & H); exists post;
        rewrite append_cons in *; congruence.
    + split; [discriminate|].
      intros (post & H). rewrite append_cons in H. congruence.
Qed.

Lemma str_contains_unfold (needle hay : string) :
  str_contains needle hay
  = String.prefix needle hay ||
    match hay with
    | EmptyString => false
    | String _ rest => str_contains needle rest
    end.
Proof. destruct hay; reflexivity. Qed.

Lemma str_contains_app (needle hay : string) :
  str_contains needle hay = true <->
  exists pre post, hay = pre ++ needle ++ post.
Proof.
  induction hay as [|c hay IH];
    rewrite str_contains_unfold, orb_true_iff, prefix_app.
  - split.
    + intros [(post & H) | H]; [|discriminate]. exists "", post. exact H.
    + intros ([|? pre] & post & H); [|discriminate]. left. eauto.
  - rewrite IH. split.
    + intros [(post & H) | (pre & post & ->)].
      * exists "", post. exact H.
      * exists (String c pre), post. reflexivity.
    + intros ([|c' pre] & post & H).
      * left. eauto.
      * right. rewrite append_cons in H. injection H as _ ->. eauto.
Qed.

(** X5. The marker test is a substring test on the first origin header:
    the request counts as local exactly when "localhost" occurs anywhere in
    that header, and it is that alone which decides between the two sets
    of attributes logout asks for. *)
Theorem localhost_marker_is_substring :
  forall (request : Request) (response : Response),
    (local_origin request <->
     exists pre post,
       headers_getitem "origin" (headers request)
         = Some (pre ++ "localhost" ++ post)) /\
    ((exists pre post,
        headers_getitem "origin" (headers request)
          = Some (pre ++ "localhost" ++ post)) ->
     logout request response
       = Return (delete_cookie response COOKIE_NAME true "lax" false)) /\
    (~ (exists pre post,
          headers_getitem "origin" (headers request)
            = Some (pre ++ "localhost" ++ post)) ->
     logout request response
       = Return (delete_cookie response COOKIE_NAME true "none" true)).
Proof.
  intros request response.
  assert (Hiff : local_origin request <->
                 exists pre post,
                   headers_getitem "origin" (headers request)
                     = Some (pre ++ "localhost" ++ post)).
  { unfold local_origin. split.
    - intros (origin & Hget & (pre & post & ->)%str_contains_app). eauto.
    - intros (pre & post & Hget). eexists. split; [exact Hget|].
      apply str_contains_app. eauto. }
  split; [exact Hiff|].
  pose proof (local_origin_test request) as Htest.
  unfold logout.
  destruct (headers_contains "origin" (headers request) && _); split.
  - reflexivity.
  - intros Hno. destruct Hno. apply Hiff, Htest. reflexivity.
  - intros Hyes%Hiff%Htest. discriminate.
  - reflexivity.
Qed.

(** X7. The validate endpoint catches [JWSError] and nothing else: any
    other exception of [jws.verify] reaches the caller as it is. When the
    endpoint returns it has made no cookie call, and it has assigned a
    status only together with the "Not a good token" body. *)
Theorem validate_token_side_effects :
  forall (access_token : AccessToken) (response : Response),
    (forall e,
       e <> JWSError ->
       jws_verify (token access_token) SECRET_KEY ALGORITHM = Raise e ->
       validate_token access_token response = Raise e) /\
    (forall body response',
       validate_token access_token response = Return (body, response') ->
       cookie_ops response' = cookie_ops response /\
       ((response' = response /\ exists payload, body = Payload payload) \/
        (status_code response' = Some 422 /\
         body = Detail "Not a good token"))).
Proof.
  intros access_token response. unfold validate_token. split.
  - intros e Hne ->. destruct e; congruence.
  - intros body response'.
    destruct (jws_verify (token access_token) SECRET_KEY ALGORITHM)
      as [payload|[]]; try discriminate; intros [= <- <-]; simpl.
    + split; [reflexivity|]. left. eauto.
    + split; [reflexivity|]. right. split; reflexivity.
Qed.

(** X8. On a client that stores what the responses say, whatever its
    cookies were before: after a login the read-token endpoint gives back
    the token of the login body; after a logout the cookie is gone, and the
    read-token endpoint then fails the validation of its response; no
    cookie of another name is touched by either. *)
Theorem session_cookie_lifecycle :
  forall (jar : gmap string string) (hs : list (string * string))
         (request request2 : Request) (form_data : OAuth2PasswordRequestForm)
         (repo : UsersQueries) (body : Token) (response1 response2 : Response),
    login_for_access_token empty_response request form_data repo
      = Return (body, response1) ->
    logout request2 empty_response = Return response2 ->
    let jar1 := apply_cookie_ops jar (cookie_ops response1) in
    let jar2 := apply_cookie_ops jar1 (cookie_ops response2) in
    get_token {| headers := hs; cookies := jar1 |}
      = Return {| token := access_token body |} /\
    jar2 !! COOKIE_NAME = None /\
    get_token {| headers := hs; cookies := jar2 |}
      = Raise (OtherError "ResponseValidationError") /\
    (forall name, name <> COOKIE_NAME ->
       jar1 !! name = jar !! name /\ jar2 !! name = jar !! name).
Proof.
  intros jar hs request request2 form_data repo body response1 response2
    Hlogin Hlogout.
  apply login_returns in Hlogin
    as (user & jwt & attrs & _ & _ & _ & -> & Hops & _).
  destruct (logout_returns request2 empty_response) as (attrs2 & E2 & _).
  rewrite E2 in Hlogout. injection Hlogout as <-.
  rewrite Hops. simpl. unfold get_token. simpl.
  split; [by rewrite lookup_insert_eq|].
  split; [by rewrite lookup_delete_eq|].
  split; [by rewrite lookup_delete_eq|].
  intros name Hname.
  rewrite lookup_delete_ne by done. rewrite lookup_insert_ne by done. done.
Qed.

(** X9. Signup and login fit together: with a hasher whose [verify]
    accepts a password against what its [hash] returned for it, and a
    store that after [create_user] holds a row with the given user name and
    hash, the credentials of a signup that returned log in against the
    store it left, provided the encoder returns a token. *)
Theorem signup_then_login :
  forall (user : UserSignUp.t) (repo repo' : UsersQueries)
         (response : Response) (request : Request) (jwt : string),
    (forall plain hashed,
       pwd_context_hash plain = Return hashed ->
       pwd_context_verify plain hashed = Return true) ->
    (forall name hashed email,
       create_user repo name hashed email = Return repo' ->
       exists row,
         get_user repo' (VStr name) = Some row /\
         ix1 row = name /\ ix2 row = hashed) ->
    signup user repo = Return repo' ->
    jwt_encode {[ "sub" := VStr (UserSignUp.username user) ]}
      SECRET_KEY ALGORITHM = Return jwt ->
    exists response',
      login_for_access_token response request
        {| username := UserSignUp.username user;
           password := UserSignUp.password user |} repo'
      = Return ({| access_token := jwt; token_type := "bearer" |}, response').
Proof.
  intros user repo repo' response request jwt Hhash Hstore Hsignup Henc.
  unfold signup in Hsignup.
  destruct (pwd_context_hash (UserSignUp.password user))
    as [hashed|e] eqn:Hh; simpl in Hsignup; [|discriminate].
  destruct (Hstore _ _ _ Hsignup) as (row & Hrow & Hname & Hpw).
  unfold login_for_access_token, authenticate_user, verify_password. simpl.
  rewrite Hrow. simpl. rewrite Hpw, (Hhash _ _ Hh). simpl.
  rewrite create_access_token_encode, Hname, Henc. simpl.
  destruct (headers_contains "origin" (headers request) && _); eauto.
Qed.

End Router.

(** ** The statements on the stand-in collaborators *)

(** Against C1 as first stated: an empty header token is present and does
    not verify, yet the resolver takes the cookie token and resolves the
    request; without the cookie the same header token is rejected. *)
Lemma empty_header_token_yields_to_cookie :
  candidate_token (Some "") (Some "k.alice") = Some "k.alice" /\
  get_current_user "k" demo_jwt_decode (Some "") (Some "k.alice") demo_repo
    = Return (row_to_user alice) /\
  get_current_user "k" demo_jwt_decode (Some "") None demo_repo
    = Raise credentials_exception /\
  get_current_user "k" demo_jwt_decode (Some "") (Some "k.alice") demo_repo
    <> get_current_user "k" demo_jwt_decode (Some "") None demo_repo.
Proof.
  split; [reflexivity|]. split; [vm_compute; reflexivity|].
  split; [vm_compute; reflexivity|]. vm_compute. discriminate.
Qed.

Lemma header_token_takes_precedence_witness :
  "junk" <> "" /\
  get_current_user "k" demo_jwt_decode None (Some "k.alice") demo_repo
    = Return (row_to_user alice) /\
  get_current_user "k" demo_jwt_decode (Some "junk") (Some "k.alice") demo_repo
    = Raise credentials_exception.
Proof.
  split; [done|]. split; [vm_compute; reflexivity|].
  destruct (header_token_takes_precedence "k" demo_jwt_decode
              "junk" (Some "k.alice") demo_repo) as (_ & _ & H); [done|].
  apply H. reflexivity.
Defined.



Lemma create_access_token_passes_claims_through_witness :
  let data : dict := {[ "sub" := VStr "alice" ]} in
  data !! "exp" = None /\
  dict_copy data !! "exp" = None /\
  dict_copy data !! "iat" = None /\
  create_access_token "k" demo_jwt_encode data = Return "k.alice".
Proof.
  intros data.
  destruct (create_access_token_passes_claims_through "k" demo_jwt_encode data)
    as (_ & _ & Hexp & Hiat & Henc).
  split; [reflexivity|]. split; [apply Hexp; reflexivity|].
  split; [apply Hiat; reflexivity|].
  rewrite Henc. reflexivity.
Defined.

Lemma login_cookie_attributes_witness :
  let form := {| username := "alice"; password := "wonderland" |} in
  let dev :=
    {| headers := [("host", "localhost:8000");
                   ("origin", "http://localhost:3000")];
       cookies := ∅ |} in
  let prod :=
    {| headers := [("host", "localhost:8000");
                   ("origin", "https://great-builds.example")];
       cookies := ∅ |} in
  let bare := {| headers := [("host", "localhost:8000")]; cookies := ∅ |} in
  (exists body response',
     login_for_access_token "k" demo_jwt_encode demo_pwd_verify
       empty_response dev form demo_repo = Return (body, response') /\
     cookie_ops response'
       = [SetCookie COOKIE_NAME "k.alice"
            {| httponly := true; samesite := "lax"; secure := false |}]) /\
  (exists body response',
     login_for_access_token "k" demo_jwt_encode demo_pwd_verify
       empty_response prod form demo_repo = Return (body, response') /\
     cookie_ops response'
       = [SetCookie COOKIE_NAME "k.alice"
            {| httponly := true; samesite := "none"; secure := true |}]) /\
  (exists body response',
     login_for_access_token "k" demo_jwt_encode demo_pwd_verify
       empty_response bare form demo_repo = Return (body, response') /\
     cookie_ops response'
       = [SetCookie COOKIE_NAME "k.alice"
            {| httponly := true; samesite := "none"; secure := true |}]).
Proof.
  intros form dev prod bare.
  set (bearer_body := {| access_token := "k.alice"; token_type := "bearer" |}).
  split; [|split].
  - exists bearer_body. eexists. split; [vm_compute; reflexivity|].
    refine (proj1 (login_cookie_attributes "k" demo_jwt_encode demo_pwd_verify
                     empty_response dev form demo_repo bearer_body _ _) _).
    + vm_compute. reflexivity.
    + exists "http://localhost:3000". split; reflexivity.
  - exists bearer_body. eexists. split; [vm_compute; reflexivity|].
    refine (proj2 (login_cookie_attributes "k" demo_jwt_encode demo_pwd_verify
                     empty_response prod form demo_repo bearer_body _ _) _).
    + vm_compute. reflexivity.
    + intros (origin & [= <-] & Hin). vm_compute in Hin. discriminate.
  - exists bearer_body. eexists. split; [vm_compute; reflexivity|].
    refine (proj2 (login_cookie_attributes "k" demo_jwt_encode demo_pwd_verify
                     empty_response bare form demo_repo bearer_body _ _) _).
    + vm_compute. reflexivity.
    + intros (origin & [=] & _).
Defined.

Lemma get_token_without_cookie_fails_witness :
  get_token {| headers := []; cookies := {[ COOKIE_NAME := "k.alice" ]} |}
    = Return {| token := "k.alice" |} /\
  get_token {| headers := []; cookies := ∅ |}
    = Raise (OtherError "ResponseValidationError").
Proof.
  split.
  - apply (proj1 (get_token_without_cookie_fails _)). reflexivity.
  - apply (proj2 (get_token_without_cookie_fails _)). reflexivity.
Defined.

Lemma validate_token_type_error_escapes_witness :
  py_in_str (VInt 5) ALGORITHM = Raise (OtherError "TypeError") /\
  py_in_list (VInt 5) [ALGORITHM] = Return false /\
  validate_token "k" demo_jose_verify {| token := "other.alice" |}
    empty_response
    = Return (Detail "Not a good token",
              {| status_code := Some 422; cookie_ops := [] |}) /\
  validate_token "k" demo_jose_verify {| token := "5.alice" |} empty_response
    = Raise (OtherError "TypeError").
Proof.
  split; [reflexivity|]. split; [reflexivity|]. split.
  - apply (proj1 (validate_token_type_error_escapes "k" demo_jose_verify
                    {| token := "other.alice" |} empty_response)).
    reflexivity.
  - apply (proj2 (proj2 (validate_token_type_error_escapes "k" demo_jose_verify
                           {| token := "5.alice" |} empty_response))).
    reflexivity.
Defined.

Lemma logout_spec_witness :
  let dev :=
    {| headers := [("origin", "http://localhost:3000")];
       cookies := {[ COOKIE_NAME := "k.alice" ]} |} in
  let again :=
    {| headers := [("origin", "http://localhost:3000")]; cookies := ∅ |} in
  let jar : gmap string string :=
    {[ COOKIE_NAME := "k.alice"; "theme" := "dark" ]} in
  logout again empty_response = logout dev empty_response /\
  forall response1 response2,
    logout dev empty_response = Return response1 ->
    logout again empty_response = Return response2 ->
    apply_cookie_ops jar (cookie_ops response1) !! COOKIE_NAME = None /\
    apply_cookie_ops (apply_cookie_ops jar (cookie_ops response1))
                     (cookie_ops response2)
      = apply_cookie_ops jar (cookie_ops response1).
Proof.
  intros dev again jar.
  destruct (logout_spec "k" demo_jwt_encode demo_pwd_verify dev empty_response)
    as (_ & Hcookies & _ & Htwice).
  split.
  - apply Hcookies. reflexivity.
  - intros response1 response2 H1 H2. exact (Htwice again _ _ jar H1 H2).
Defined.

Lemma cookie_is_always_httponly_witness :
  let form := {| username := "alice"; password := "wonderland" |} in
  let dev :=
    {| headers := [("origin", "http://localhost:3000")]; cookies := ∅ |} in
  let body := {| access_token := "k.alice"; token_type := "bearer" |} in
  let response' :=
    set_cookie empty_response COOKIE_NAME "k.alice" true "lax" false in
  login_for_access_token "k" demo_jwt_encode demo_pwd_verify
    empty_response dev form demo_repo = Return (body, response') /\
  exists op,
    cookie_ops response' = (cookie_ops empty_response ++ [op])%list /\
    httponly (op_attrs op) = true.
Proof.
  intros form dev body response'.
  assert (Hlogin : login_for_access_token "k" demo_jwt_encode demo_pwd_verify
                     empty_response dev form demo_repo
                   = Return (body, response'))
    by (vm_compute; reflexivity).
  split; [exact Hlogin|].
  exact (proj1 (cookie_is_always_httponly "k" demo_jwt_encode demo_pwd_verify
                  dev empty_response) form demo_repo body response' Hlogin).
Defined.

(** ** The further properties on the stand-in collaborators *)

Lemma login_raises_iff_witness :
  login_for_access_token "k" demo_jwt_encode demo_pwd_verify empty_response
    {| headers := []; cookies := ∅ |}
    {| username := "carol"; password := "wonderland" |} demo_repo
    = Raise credentials_exception /\
  login_for_access_token "k" demo_jwt_encode demo_pwd_verify empty_response
    {| headers := []; cookies := ∅ |}
    {| username := "alice"; password := "looking-glass" |} demo_repo
    = Raise credentials_exception /\
  login_for_access_token "k" demo_jwt_encode
    (fun _ _ => Raise (OtherError "UnknownHashError")) empty_response
    {| headers := []; cookies := ∅ |}
    {| username := "alice"; password := "wonderland" |} demo_repo
    = Raise (OtherError "UnknownHashError").
Proof.
  split; [|split].
  - apply (proj2 (login_raises_iff "k" demo_jwt_encode demo_pwd_verify _ _ _ _ _)).
    left. split; [reflexivity|]. left. reflexivity.
  - apply (proj2 (login_raises_iff "k" demo_jwt_encode demo_pwd_verify _ _ _ _ _)).
    left. split; [reflexivity|]. right. exists alice. split; reflexivity.
  - apply (proj2 (login_raises_iff "k" demo_jwt_encode _ _ _ _ _ _)).
    right. left. exists alice. split; reflexivity.
Defined.

Lemma login_succeeds_iff_witness :
  exists body response',
    login_for_access_token "k" demo_jwt_encode demo_pwd_verify empty_response
      {| headers := []; cookies := ∅ |}
      {| username := "alice"; password := "wonderland" |} demo_repo
    = Return (body, response').
Proof.
  apply (proj2 (proj1 (login_succeeds_iff "k" demo_jwt_encode demo_pwd_verify
                         _ _ _ _))).
  exists alice, "k.alice". split; [reflexivity|]. split; reflexivity.
Defined.

Lemma resolver_cookie_fallback_witness :
  get_current_user "k" demo_jwt_decode (Some "") (Some "k.alice") demo_repo
    = get_current_user "k" demo_jwt_decode (Some "k.alice") None demo_repo /\
  get_current_user "k" demo_jwt_decode (Some "k.alice") (Some "") demo_repo
    = get_current_user "k" demo_jwt_decode (Some "k.alice") None demo_repo.
Proof.
  split.
  - apply (proj1 (resolver_cookie_fallback "k" demo_jwt_decode
                    (Some "") (Some "k.alice") demo_repo) "k.alice");
      [by right | reflexivity | done].
  - apply (proj2 (resolver_cookie_fallback "k" demo_jwt_decode
                    (Some "k.alice") (Some "") demo_repo)).
    by right.
Defined.

Lemma login_then_resolve_witness :
  let body := {| access_token := "k.alice"; token_type := "bearer" |} in
  let response' :=
    set_cookie empty_response COOKIE_NAME "k.alice" true "none" true in
  exists user,
    get_user demo_repo (VStr "alice") = Some user /\
    let resolved :=
      match get_user demo_repo (VStr (ix1 user)) with
      | Some user' => Return (row_to_user user')
      | None => Raise credentials_exception
      end in
    get_current_user "k" demo_jwt_decode (Some "k.alice") (Some "junk")
      demo_repo = resolved /\
    get_current_user "k" demo_jwt_decode None (Some "k.alice") demo_repo
      = resolved.
Proof.
  intros body response'.
  apply (login_then_resolve "k" demo_jwt_encode demo_jwt_decode demo_pwd_verify
           empty_response {| headers := []; cookies := ∅ |}
           {| username := "alice"; password := "wonderland" |} demo_repo
           body response' (Some "junk")).
  - intros sub Henc. injection Henc as Hsub.
    unfold demo_subject in Hsub. rewrite lookup_singleton_eq in Hsub.
    change (sub = "alice") in Hsub. subst sub. reflexivity.
  - vm_compute. reflexivity.
  - done.
Defined.

Lemma localhost_marker_is_substring_witness :
  logout {| headers := [("origin", "https://localhost.example.org")];
            cookies := ∅ |} empty_response
    = Return (delete_cookie empty_response COOKIE_NAME true "lax" false) /\
  logout {| headers := [("origin", "https://great-builds.example")];
            cookies := ∅ |} empty_response
    = Return (delete_cookie empty_response COOKIE_NAME true "none" true).
Proof.
  split.
  - apply (proj1 (proj2 (localhost_marker_is_substring _ _))).
    exists "https://", ".example.org". reflexivity.
  - apply (proj2 (proj2 (localhost_marker_is_substring _ _))).
    intros Hsub.
    apply (proj1 (localhost_marker_is_substring _ empty_response)) in Hsub.
    destruct Hsub as (origin & [= <-] & Hin). vm_compute in Hin. discriminate.
Defined.

Lemma validate_token_side_effects_witness :
  validate_token "k" (fun _ _ _ => Raise JWTError)
    {| token := "k.alice" |} empty_response
    = Raise JWTError /\
  (forall body response',
     validate_token "k" demo_jws_verify {| token := "other.alice" |}
       empty_response = Return (body, response') ->
     cookie_ops response' = []).
Proof.
  split.
  - apply (proj1 (validate_token_side_effects "k" (fun _ _ _ => Raise JWTError)
                    {| token := "k.alice" |} empty_response));
      [discriminate | reflexivity].
  - intros body response' H.
    apply (proj2 (validate_token_side_effects "k" demo_jws_verify
                    {| token := "other.alice" |} empty_response) body response' H).
Defined.

Lemma session_cookie_lifecycle_witness :
  let jar : gmap string string :=
    {[ COOKIE_NAME := "stale"; "theme" := "dark" ]} in
  let body := {| access_token := "k.alice"; token_type := "bearer" |} in
  let response1 :=
    set_cookie empty_response COOKIE_NAME "k.alice" true "none" true in
  let response2 :=
    delete_cookie empty_response COOKIE_NAME true "none" true in
  let jar1 := apply_cookie_ops jar (cookie_ops response1) in
  let jar2 := apply_cookie_ops jar1 (cookie_ops response2) in
  get_token {| headers := []; cookies := jar1 |}
    = Return {| token := "k.alice" |} /\
  get_token {| headers := []; cookies := jar2 |}
    = Raise (OtherError "ResponseValidationError") /\
  jar2 !! "theme" = Some "dark".
Proof.
  intros jar body response1 response2 jar1 jar2.
  destruct (session_cookie_lifecycle "k" demo_jwt_encode demo_pwd_verify
              jar [] {| headers := []; cookies := ∅ |}
              {| headers := []; cookies := ∅ |}
              {| username := "alice"; password := "wonderland" |} demo_repo
              body response1 response2)
    as (H1 & _ & H2 & H3); [vm_compute; reflexivity | reflexivity |].
  split; [exact H1|]. split; [exact H2|].
  destruct (H3 "theme") as [_ Heq]; [done|].
  etrans; [exact Heq | reflexivity].
Defined.

Lemma signup_then_login_witness :
  let bob :=
    {| UserSignUp.username := "bob"; UserSignUp.email := Some "bob@example.com";
       UserSignUp.full_name := None; UserSignUp.disabled := None;
       UserSignUp.password := "builder" |} in
  exists repo' response',
    signup demo_pwd_hash demo_create_user bob demo_repo = Return repo' /\
    login_for_access_token "k" demo_jwt_encode demo_pwd_verify empty_response
      {| headers := []; cookies := ∅ |}
      {| username := "bob"; password := "builder" |} repo'
    = Return ({| access_token := "k.bob"; token_type := "bearer" |}, response').
Proof.
  intros bob.
  destruct (demo_create_user demo_repo "bob" "hash:builder"
              (Some "bob@example.com")) as [repo'|e] eqn:Hcreate;
    [|discriminate].
  exists repo'.
  assert (Hsignup : signup demo_pwd_hash demo_create_user bob demo_repo
                    = Return repo') by exact Hcreate.
  destruct (signup_then_login "k" demo_jwt_encode demo_pwd_verify demo_pwd_hash
              demo_create_user bob demo_repo repo' empty_response
              {| headers := []; cookies := ∅ |} "k.bob")
    as (response' & Hlogin).
  - intros plain hashed [= <-]. unfold demo_pwd_verify.
    by rewrite bool_decide_eq_true_2.
  - intros name hashed email H. unfold demo_create_user in H.
    destruct (get_user demo_repo (VStr name)); [discriminate|].
    injection H as <-. eexists. simpl.
    rewrite bool_decide_eq_true_2 by done. eauto.
  - exact Hsignup.
  - reflexivity.
  - exists response'. split; [exact Hsignup | exact Hlogin].
Defined.
